(** * devops-playground: the Flask user service (src/app/app.py)

    A shallow embedding of the request handlers of [app.py] and of the two
    services they talk to (the PostgreSQL store reached through psycopg2 and
    the Redis cache), followed by the properties of the handlers.

    Python values are an inductive type, the process and its environment are
    one record [World], and a handler is a computation in a state-and-exception
    monad over that record: [try]/[except]/[finally] are combinators of the
    monad, an exception that leaves a handler is the [Raise] result. *)

From Stdlib Require Import ZArith List String Ascii Bool Lia.
From stdpp Require Import base gmap strings pretty list sorting.

Set Warnings "-register-all,-clear-no-such-hyp".
Local Open Scope string_scope.
Local Open Scope Z_scope.

(** ** Python values *)

(** The values that travel through the handlers: what [request.get_json()]
    returns, what [jsonify] and [json.dumps] receive.  A [float] is carried
    by its [repr]; a [datetime] (the [created_at] column of a fetched row)
    by its instant. *)
Inductive pyval : Type :=
  | PNone
  | PBool (b : bool)
  | PInt (n : Z)
  | PFloat (repr : string)
  | PStr (s : string)
  | PDatetime (t : Z)
  | PList (l : list pyval)
  | PDict (d : list (string * pyval)).

Inductive exn : Type :=
  | TypeError
  | KeyError
  | JSONDecodeError
  | RedisConnectionError
  | OperationalError
  | IntegrityError
  | DataError
  | ProgrammingError.

Inductive Res (A : Type) : Type :=
  | Ok (a : A)
  | Raise (e : exn).
Arguments Ok {A} a.
Arguments Raise {A} e.

(** [bool(v)]: Python truthiness. *)
Definition truthy (v : pyval) : bool :=
  match v with
  | PNone => false
  | PBool b => b
  | PInt n => negb (n =? 0)
  | PFloat r => negb (String.eqb r "0.0" || String.eqb r "-0.0")
  | PStr s => negb (String.eqb s "")
  | PDatetime _ => true
  | PList l => match l with [] => false | _ => true end
  | PDict d => match d with [] => false | _ => true end
  end.

Fixpoint dict_get (k : string) (d : list (string * pyval)) : option pyval :=
  match d with
  | [] => None
  | (k', v) :: d' => if String.eqb k k' then Some v else dict_get k d'
  end.

Definition dict_has (k : string) (d : list (string * pyval)) : bool :=
  match dict_get k d with Some _ => true | None => false end.

(** [d[k] = v] on a dict: the key keeps its place when present, and is
    appended otherwise. *)
Fixpoint dict_set (k : string) (v : pyval) (d : list (string * pyval))
  : list (string * pyval) :=
  match d with
  | [] => [(k, v)]
  | (k', v') :: d' =>
      if String.eqb k k' then (k', v) :: d' else (k', v') :: dict_set k v d'
  end.

(** [needle in hay] on two strings. *)
Fixpoint str_contains (needle hay : string) : bool :=
  String.prefix needle hay ||
  match hay with
  | EmptyString => false
  | String _ hay' => str_contains needle hay'
  end.

Definition is_str (k : string) (v : pyval) : bool :=
  match v with PStr s => String.eqb k s | _ => false end.

(** [k in v] for a string [k]: key membership on a dict, element membership
    on a list, substring on a string, [TypeError] on what is not a
    container. *)
Definition py_in (k : string) (v : pyval) : Res bool :=
  match v with
  | PDict d => Ok (dict_has k d)
  | PList l => Ok (existsb (is_str k) l)
  | PStr s => Ok (str_contains k s)
  | _ => Raise TypeError
  end.

(** [v[k]] for a string [k]. *)
Definition py_getitem (v : pyval) (k : string) : Res pyval :=
  match v with
  | PDict d => match dict_get k d with Some x => Ok x | None => Raise KeyError end
  | _ => Raise TypeError
  end.

(** ** The world: the cache, the store and the clock *)

(** A row of the table [users]. *)
Record UserRow : Type := {
  row_id : Z;
  row_name : string;
  row_email : string;
  row_created_at : Z
}.

Record World : Type := {
  (** the module global [redis_client]: [false] is [None], the client that
      failed its first ping *)
  redis_client : bool;
  (** whether a call on the client reaches the server; a call raises when
      it does not *)
  redis_up : bool;
  (** key to value and the expiry it was written with *)
  redis_data : gmap string (string * Z);
  (** whether [psycopg2.connect] succeeds *)
  db_up : bool;
  (** whether the backend fails the next statement *)
  db_fault : bool;
  users : list UserRow;
  (** the sequence behind [id SERIAL]: the next value it hands out *)
  users_id_seq : Z;
  (** [CURRENT_TIMESTAMP] of the backend *)
  db_now : Z;
  (** connections that are open, by number *)
  db_open : gset nat;
  (** how many times [psycopg2.connect] was called; the next connection
      gets this number *)
  db_connects : nat;
  (** [datetime.utcnow().isoformat()] *)
  utcnow_iso : string
}.

Definition set_redis_data (m : gmap string (string * Z)) (w : World) : World :=
  {| redis_client := redis_client w; redis_up := redis_up w; redis_data := m;
     db_up := db_up w; db_fault := db_fault w; users := users w;
     users_id_seq := users_id_seq w; db_now := db_now w; db_open := db_open w;
     db_connects := db_connects w; utcnow_iso := utcnow_iso w |}.

Definition set_users (us : list UserRow) (seq : Z) (w : World) : World :=
  {| redis_client := redis_client w; redis_up := redis_up w;
     redis_data := redis_data w;
     db_up := db_up w; db_fault := db_fault w; users := us;
     users_id_seq := seq; db_now := db_now w; db_open := db_open w;
     db_connects := db_connects w; utcnow_iso := utcnow_iso w |}.

Definition set_conns (open : gset nat) (n : nat) (w : World) : World :=
  {| redis_client := redis_client w; redis_up := redis_up w;
     redis_data := redis_data w;
     db_up := db_up w; db_fault := db_fault w; users := users w;
     users_id_seq := users_id_seq w; db_now := db_now w; db_open := open;
     db_connects := n; utcnow_iso := utcnow_iso w |}.

(** ** The monad of handlers *)

Definition M (A : Type) : Type := World -> Res A * World.

Definition ret {A} (a : A) : M A := fun w => (Ok a, w).

Definition raise {A} (e : exn) : M A := fun w => (Raise e, w).

Definition bind {A B} (m : M A) (k : A -> M B) : M B :=
  fun w =>
    match m w with
    | (Ok a, w') => k a w'
    | (Raise e, w') => (Raise e, w')
    end.

Definition lift {A} (r : Res A) : M A := fun w => (r, w).

Definition get_world : M World := fun w => (Ok w, w).

Notation "x <- m ;; k" := (bind m (fun x => k))
  (at level 100, m at next level, right associativity).
Notation "m ;;; k" := (bind m (fun _ => k))
  (at level 100, right associativity).

(** [try: m except e: h e]. *)
Definition try_except {A} (m : M A) (h : exn -> M A) : M A :=
  fun w =>
    match m w with
    | (Ok a, w') => (Ok a, w')
    | (Raise e, w') => h e w'
    end.

(** [try: m finally: f]: [f] runs on every way out of [m]. *)
Definition try_finally {A} (m : M A) (f : M unit) : M A :=
  fun w =>
    match m w with
    | (r, w') =>
        match f w' with
        | (Ok _, w'') => (r, w'')
        | (Raise e, w'') => (Raise e, w'')
        end
    end.

(** ** What the program takes from its libraries *)

(** [json.dumps] and [json.loads] of the standard library, and what psycopg2
    and the backend make of a statement parameter that is neither [None] nor
    a [str] (the text the [VARCHAR] column receives, or [None] when the
    driver cannot adapt the value). *)
Class Externals : Type := {
  json_dumps : pyval -> Res string;
  json_loads : string -> Res pyval;
  adapt_other : pyval -> option string
}.

(** ** HTTP responses *)

Inductive body : Type :=
  | JsonBody (v : pyval)
  | TextBody (s : string).

Record Response : Type := {
  status : Z;
  content_type : string;
  content : body
}.

(** [jsonify(v), code]; a view that returns [jsonify(v)] alone answers 200. *)
Definition jsonify (v : pyval) (code : Z) : Response :=
  {| status := code; content_type := "application/json"; content := JsonBody v |}.

Definition error_body (msg : string) : pyval := PDict [("error", PStr msg)].

(** What the HTTP caller sees: Flask answers 500 when an exception leaves
    the view. *)
Definition http_status (r : Res Response) : Z :=
  match r with
  | Ok resp => status resp
  | Raise _ => 500
  end.

(** ** The store *)

Definition utcnow_isoformat : M string := fun w => (Ok (utcnow_iso w), w).

(** [psycopg2.connect(...)]. *)
Definition psycopg2_connect : M nat :=
  fun w =>
    let c := db_connects w in
    if db_up w
    then (Ok c, set_conns ({[c]} ∪ db_open w) (S c) w)
    else (Raise OperationalError, set_conns (db_open w) (S c) w).

(** [get_db_connection()]: the connection, or [None] when connecting
    raised. *)
Definition get_db_connection : M (option nat) :=
  try_except (conn <- psycopg2_connect ;; ret (Some conn))
             (fun _ => ret None).

(** [conn.close()]. *)
Definition conn_close (conn : nat) : M unit :=
  fun w => (Ok tt, set_conns (db_open w ∖ {[conn]}) (db_connects w) w).

(** [conn.commit()].  The statements below take effect when they run; no
    handler can fail between a statement and its commit. *)
Definition conn_commit (conn : nat) : M unit := ret tt.

Inductive sqlval : Type :=
  | SqlNull
  | SqlText (s : string).

Definition varchar_fits (n : nat) (v : sqlval) : bool :=
  match v with
  | SqlNull => true
  | SqlText s => Nat.leb (String.length s) n
  end.

Definition email_taken (e : string) (us : list UserRow) : bool :=
  existsb (fun r => String.eqb (row_email r) e) us.

Definition row_dict (r : UserRow) : pyval :=
  PDict [("id", PInt (row_id r)); ("name", PStr (row_name r));
         ("email", PStr (row_email r));
         ("created_at", PDatetime (row_created_at r))].

Fixpoint insert_desc (r : UserRow) (l : list UserRow) : list UserRow :=
  match l with
  | [] => [r]
  | x :: l' =>
      if row_created_at x <? row_created_at r then r :: l
      else x :: insert_desc r l'
  end.

(** [ORDER BY created_at DESC]; rows of one instant stay in table order. *)
Definition order_by_created_at_desc (us : list UserRow) : list UserRow :=
  foldr insert_desc [] us.

Section Handlers.
Context {ext : Externals}.

Definition adapt (v : pyval) : option sqlval :=
  match v with
  | PNone => Some SqlNull
  | PStr s => Some (SqlText s)
  | _ => SqlText <$> adapt_other v
  end.

(** [INSERT INTO users (name, email) VALUES (%s, %s) RETURNING id] followed
    by [fetchone()[0]], on the table
    [users(id SERIAL PRIMARY KEY, name VARCHAR(100) NOT NULL,
           email VARCHAR(100) UNIQUE NOT NULL, created_at TIMESTAMP DEFAULT
           CURRENT_TIMESTAMP)].
    A value too long for its column is a [DataError]; a [NULL] in a
    [NOT NULL] column and a second row with an email are both
    [IntegrityError]s, and the sequence value drawn for the row is not given
    back. *)
Definition execute_insert_user (name email : pyval) : M Z :=
  fun w =>
    if db_fault w then (Raise OperationalError, w) else
    match adapt name, adapt email with
    | Some n, Some e =>
        if negb (varchar_fits 100 n && varchar_fits 100 e)
        then (Raise DataError, w)
        else
          let id := users_id_seq w in
          match n, e with
          | SqlText sn, SqlText se =>
              if email_taken se (users w)
              then (Raise IntegrityError, set_users (users w) (id + 1) w)
              else (Ok id,
                    set_users (users w ++
                                 [{| row_id := id; row_name := sn;
                                     row_email := se;
                                     row_created_at := db_now w |}])
                              (id + 1) w)
          | _, _ => (Raise IntegrityError, set_users (users w) (id + 1) w)
          end
    | _, _ => (Raise ProgrammingError, w)
    end.

(** [SELECT * FROM users ORDER BY created_at DESC] and [fetchall()]. *)
Definition execute_select_users : M (list UserRow) :=
  fun w =>
    if db_fault w then (Raise OperationalError, w)
    else (Ok (order_by_created_at_desc (users w)), w).

(** [SELECT * FROM users WHERE id = %s] and [fetchone()]. *)
Definition execute_select_user (user_id : Z) : M (option UserRow) :=
  fun w =>
    if db_fault w then (Raise OperationalError, w)
    else (Ok (find (fun r => row_id r =? user_id) (users w)), w).

(** ** The cache *)

Definition redis_ping : M bool :=
  fun w =>
    if redis_up w then (Ok true, w) else (Raise RedisConnectionError, w).

Definition redis_get (key : string) : M (option string) :=
  fun w =>
    if redis_up w then (Ok (fst <$> redis_data w !! key), w)
    else (Raise RedisConnectionError, w).

Definition redis_setex (key : string) (ttl : Z) (value : string) : M unit :=
  fun w =>
    if redis_up w
    then (Ok tt, set_redis_data (<[key := (value, ttl)]> (redis_data w)) w)
    else (Raise RedisConnectionError, w).

(** [f"user:{user_id}"]. *)
Definition user_key (user_id : Z) : string := "user:" +:+ pretty user_id.

(** ** The handlers *)

(** [GET /]. *)
Definition health_check : M Response :=
  now <- utcnow_isoformat ;;
  ret (jsonify (PDict [("status", PStr "healthy"); ("timestamp", PStr now);
                       ("version", PStr "1.0.0")]) 200).

(** [health_status['services'][name] = state]. *)
Definition set_service (name state : string) (health_status : list (string * pyval))
  : list (string * pyval) :=
  match dict_get "services" health_status with
  | Some (PDict services) =>
      dict_set "services" (PDict (dict_set name (PStr state) services))
               health_status
  | _ => health_status
  end.

Definition set_degraded (health_status : list (string * pyval))
  : list (string * pyval) :=
  dict_set "status" (PStr "degraded") health_status.

(** [GET /health]. *)
Definition detailed_health : M Response :=
  now <- utcnow_isoformat ;;
  let health_status :=
    [("status", PStr "healthy"); ("timestamp", PStr now);
     ("version", PStr "1.0.0"); ("services", PDict [])] in
  db_conn <- get_db_connection ;;
  health_status <-
    match db_conn with
    | Some conn =>
        let health_status := set_service "database" "healthy" health_status in
        conn_close conn ;;;
        ret health_status
    | None =>
        ret (set_degraded (set_service "database" "unhealthy" health_status))
    end ;;
  w <- get_world ;;
  health_status <-
    (if redis_client w
     then try_except
            (redis_ping ;;; ret (set_service "redis" "healthy" health_status))
            (fun _ =>
               ret (set_degraded (set_service "redis" "unhealthy" health_status)))
     else ret (set_degraded (set_service "redis" "unhealthy" health_status))) ;;
  ret (jsonify (PDict health_status) 200).

(** [GET /users]. *)
Definition get_users : M Response :=
  conn <- get_db_connection ;;
  match conn with
  | None => ret (jsonify (error_body "Database connection failed") 500)
  | Some conn =>
      try_finally
        (try_except
           (rows <- execute_select_users ;;
            ret (jsonify (PList (map row_dict rows)) 200))
           (fun _ => ret (jsonify (error_body "Failed to fetch users") 500)))
        (conn_close conn)
  end.

(** [not data or 'name' not in data or 'email' not in data], left to
    right. *)
Definition missing_fields (data : pyval) : Res bool :=
  if negb (truthy data) then Ok true else
  match py_in "name" data with
  | Raise e => Raise e
  | Ok false => Ok true
  | Ok true =>
      match py_in "email" data with
      | Raise e => Raise e
      | Ok has_email => Ok (negb has_email)
      end
  end.

(** The snapshot [create_user] writes to the cache. *)
Definition user_data (user_id : Z) (name email : pyval) (now : string) : pyval :=
  PDict [("id", PInt user_id); ("name", name); ("email", email);
         ("created_at", PStr now)].

(** [POST /users]; [data] is what [request.get_json()] returned, [None]
    for a request without a JSON body. *)
Definition create_user (data : pyval) : M Response :=
  missing <- lift (missing_fields data) ;;
  if (missing : bool)
  then ret (jsonify (error_body "Name and email are required") 400)
  else
    conn <- get_db_connection ;;
    match conn with
    | None => ret (jsonify (error_body "Database connection failed") 500)
    | Some conn =>
        try_finally
          (try_except
             (name <- lift (py_getitem data "name") ;;
              email <- lift (py_getitem data "email") ;;
              user_id <- execute_insert_user name email ;;
              conn_commit conn ;;;
              w <- get_world ;;
              (if redis_client w
               then try_except
                      (name <- lift (py_getitem data "name") ;;
                       email <- lift (py_getitem data "email") ;;
                       now <- utcnow_isoformat ;;
                       snapshot <- lift (json_dumps (user_data user_id name email now)) ;;
                       redis_setex (user_key user_id) 3600 snapshot)
                      (fun _ => ret tt)
               else ret tt) ;;;
              name <- lift (py_getitem data "name") ;;
              email <- lift (py_getitem data "email") ;;
              ret (jsonify (PDict [("id", PInt user_id); ("name", name);
                                   ("email", email);
                                   ("message", PStr "User created successfully")])
                           201))
             (fun e =>
                match e with
                | IntegrityError =>
                    ret (jsonify (error_body "Email already exists") 409)
                | _ => ret (jsonify (error_body "Failed to create user") 500)
                end))
          (conn_close conn)
    end.

(** The cache lookup that opens [get_user]: the response on a hit, [None]
    when the handler goes on to the store. *)
Definition get_user_cached (user_id : Z) : M (option Response) :=
  w <- get_world ;;
  if redis_client w
  then try_except
         (cached_user <- redis_get (user_key user_id) ;;
          match cached_user with
          | Some s =>
              if truthy (PStr s)
              then v <- lift (json_loads s) ;; ret (Some (jsonify v 200))
              else ret None
          | None => ret None
          end)
         (fun _ => ret None)
  else ret None.

(** [GET /users/<int:user_id>]. *)
Definition get_user (user_id : Z) : M Response :=
  hit <- get_user_cached user_id ;;
  match hit with
  | Some resp => ret resp
  | None =>
      conn <- get_db_connection ;;
      match conn with
      | None => ret (jsonify (error_body "Database connection failed") 500)
      | Some conn =>
          try_finally
            (try_except
               (user <- execute_select_user user_id ;;
                match user with
                | Some row => ret (jsonify (row_dict row) 200)
                | None => ret (jsonify (error_body "User not found") 404)
                end)
               (fun _ => ret (jsonify (error_body "Failed to fetch user") 500)))
            (conn_close conn)
      end
  end.

(** A value of [metrics_data]. *)
Inductive number : Type :=
  | NInt (n : Z)
  | NFloat (repr : string).

(** [f"{value}"]. *)
Definition format_number (value : number) : string :=
  match value with
  | NInt n => pretty n
  | NFloat r => r
  end.

Definition newline : string := String (ascii_of_nat 10) "".

(** [GET /metrics]. *)
Definition metrics : M Response :=
  conn <- get_db_connection ;;
  let database_connections_active :=
    match conn with Some _ => 1 | None => 0 end in
  w <- get_world ;;
  redis_connections_active <-
    (if redis_client w
     then pong <- redis_ping ;; ret (if (pong : bool) then 1 else 0)
     else ret 0) ;;
  let metrics_data :=
    [("http_requests_total", NInt 1);
     ("http_request_duration_seconds", NFloat "0.1");
     ("database_connections_active", NInt database_connections_active);
     ("redis_connections_active", NInt redis_connections_active)] in
  let prometheus_metrics :=
    map (fun '(metric, value) => metric +:+ " " +:+ format_number value)
        metrics_data in
  ret {| status := 200; content_type := "text/plain";
         content := TextBody (String.concat newline prometheus_metrics) |}.

(** ** Requests and the life of the service *)

Inductive request : Type :=
  | GetRoot
  | GetHealth
  | GetUsers
  | PostUsers (data : pyval)
  | GetUser (user_id : Z)
  | GetMetrics.

(** The routes of [app]. *)
Definition handle (r : request) : M Response :=
  match r with
  | GetRoot => health_check
  | GetHealth => detailed_health
  | GetUsers => get_users
  | PostUsers data => create_user data
  | GetUser user_id => get_user user_id
  | GetMetrics => metrics
  end.

(** What happens outside the handlers: services go down and come back, the
    process restarts with or without its cache client, clocks advance, and
    cache entries expire.  Rows and the sequence stay; a cache key keeps its
    entry or loses it. *)
Definition environment (w w' : World) : Prop :=
  users w' = users w /\
  users_id_seq w' = users_id_seq w /\
  forall key, redis_data w' !! key = None \/
              redis_data w' !! key = redis_data w !! key.

Inductive step : World -> World -> Prop :=
  | step_request (r : request) (w : World) : step w (snd (handle r w))
  | step_environment (w w' : World) : environment w w' -> step w w'.

(** An empty table, its sequence at 1, and an empty cache. *)
Definition initial (w : World) : Prop :=
  users w = [] /\ users_id_seq w = 1 /\ redis_data w = ∅.

Definition reachable (w : World) : Prop :=
  exists w0, initial w0 /\ rtc step w0 w.

(** ** Vocabulary of the properties *)

(** The two liveness checks of [/health]: connecting to the store, and
    pinging through a cache client that exists. *)
Definition store_check_ok (w : World) : bool :=
  match fst (get_db_connection w) with Ok (Some _) => true | _ => false end.

Definition cache_check_ok (w : World) : bool :=
  redis_client w &&
  match fst (redis_ping w) with Ok _ => true | Raise _ => false end.

(** The [status] member of a JSON response. *)
Definition overall_status (r : Res Response) : option pyval :=
  match r with
  | Ok {| content := JsonBody (PDict d) |} => dict_get "status" d
  | _ => None
  end.

(** A member of a JSON response. *)
Definition response_member (k : string) (resp : Response) : option pyval :=
  match content resp with
  | JsonBody (PDict d) => dict_get k d
  | _ => None
  end.

(** Where [json.dumps] writes the snapshot and [json.loads] reads the text
    back, the value read is the snapshot. *)
Definition snapshot_reads_back (snapshot : pyval) : Prop :=
  forall s v, json_dumps snapshot = Ok s -> json_loads s = Ok v -> v = snapshot.


(** The cache holds, under the key of [user_id], a JSON document that the
    client reads back as [v]. *)
Definition cache_entry (w : World) (user_id : Z) (v : pyval) : Prop :=
  redis_client w = true /\
  exists s, fst (redis_get (user_key user_id) w) = Ok (Some s) /\
            s <> "" /\ json_loads s = Ok v.

(** A computation that closes what it opens: every connection open after
    it was open before it. *)
Definition releases {A} (m : M A) : Prop :=
  forall w, db_open (snd (m w)) ⊆ db_open w.

(** The process started without its cache: [redis_client = None]. *)
Definition disable_cache (w : World) : World :=
  {| redis_client := false; redis_up := redis_up w;
     redis_data := redis_data w;
     db_up := db_up w; db_fault := db_fault w; users := users w;
     users_id_seq := users_id_seq w; db_now := db_now w; db_open := db_open w;
     db_connects := db_connects w; utcnow_iso := utcnow_iso w |}.

(** The four gauges of [/metrics], in the order of [metrics_data]. *)
Definition metric_names : list string :=
  ["http_requests_total"; "http_request_duration_seconds";
   "database_connections_active"; "redis_connections_active"].

(** A line [name value] of the metrics text. *)
Definition metric_line (name line : string) : Prop :=
  String.prefix (name +:+ " ") line = true.

(** The lines of a text, split at line feeds. *)
Fixpoint lines (s : string) : list string :=
  match s with
  | EmptyString => [EmptyString]
  | String c s' =>
      if Ascii.eqb c (ascii_of_nat 10) then EmptyString :: lines s'
      else
        match lines s' with
        | l :: ls => String c l :: ls
        | [] => [String c EmptyString]
        end
  end.

(** Nothing of the store's table or of the cache changed. *)
Definition same_data (w w' : World) : Prop :=
  users w' = users w /\ users_id_seq w' = users_id_seq w /\
  redis_data w' = redis_data w.

(** How table and cache move in one or more steps: the sequence only grows,
    rows are only added and carry the sequence values drawn meanwhile, and
    the cache entry of a user id that was not drawn meanwhile stays or
    goes. *)
Definition evolves (w w' : World) : Prop :=
  users_id_seq w <= users_id_seq w' /\
  (exists new, users w' = (users w ++ new)%list /\
     forall r, r ∈ new -> users_id_seq w <= row_id r < users_id_seq w') /\
  (forall k, k < users_id_seq w \/ users_id_seq w' <= k ->
     redis_data w' !! user_key k = None \/
     redis_data w' !! user_key k = redis_data w !! user_key k).

(** Every row carries a value the sequence has handed out, and no user id
    still to come has a cache entry. *)
Definition coherent (w : World) : Prop :=
  (forall r, r ∈ users w -> row_id r < users_id_seq w) /\
  (forall k, users_id_seq w <= k -> redis_data w !! user_key k = None).

(** ** Startup *)

Definition set_redis_client (client : bool) (w : World) : World :=
  {| redis_client := client; redis_up := redis_up w;
     redis_data := redis_data w;
     db_up := db_up w; db_fault := db_fault w; users := users w;
     users_id_seq := users_id_seq w; db_now := db_now w; db_open := db_open w;
     db_connects := db_connects w; utcnow_iso := utcnow_iso w |}.

(** The module-level [try]: build the client and ping; [redis_client] is
    [None] when that raises. *)
Definition init_redis_client (w : World) : World :=
  match redis_ping w with
  | (Ok _, w') => set_redis_client true w'
  | (Raise _, w') => set_redis_client false w'
  end.

(** [CREATE TABLE IF NOT EXISTS table (...)] on the set of tables of the
    database. *)
Definition create_table_if_not_exists (table : string) (w : World)
    (tables : gset string) : Res unit * gset string :=
  if db_fault w then (Raise OperationalError, tables)
  else (Ok tt, {[table]} ∪ tables).

(** [init_database()]: the result, the world and the tables afterwards.
    The two statements run in one transaction, committed after the second;
    closing the connection drops what was not committed.  The handlers
    above run against a database on which this has succeeded. *)
Definition init_database (w : World) (tables : gset string)
  : bool * World * gset string :=
  match get_db_connection w with
  | (Ok (Some conn), w1) =>
      let '(result, tables') :=
        match create_table_if_not_exists "users" w1 tables with
        | (Ok _, tables1) =>
            match create_table_if_not_exists "visits" w1 tables1 with
            | (Ok _, tables2) => (true, tables2)
            | (Raise _, _) => (false, tables)
            end
        | (Raise _, _) => (false, tables)
        end in
      (result, snd (conn_close conn w1), tables')
  | (_, w1) => (false, w1, tables)
  end.

(** ** Vocabulary of the further properties *)

(** The cache as a request finds it: client, server and entries. *)
Definition with_cache (client up : bool) (data : gmap string (string * Z))
    (w : World) : World :=
  {| redis_client := client; redis_up := up; redis_data := data;
     db_up := db_up w; db_fault := db_fault w; users := users w;
     users_id_seq := users_id_seq w; db_now := db_now w; db_open := db_open w;
     db_connects := db_connects w; utcnow_iso := utcnow_iso w |}.



(** [body['services'][name]] of a JSON response. *)
Definition service_state (name : string) (r : Res Response) : option pyval :=
  match r with
  | Ok {| content := JsonBody (PDict d) |} =>
      match dict_get "services" d with
      | Some (PDict services) => dict_get name services
      | _ => None
      end
  | _ => None
  end.

Definition health_word (ok : bool) : pyval :=
  PStr (if ok then "healthy" else "unhealthy").

(** Newest first. *)
Definition newest_first (rows : list UserRow) : Prop :=
  Sorted (fun a b => row_created_at b <= row_created_at a) rows.

(** The primary key and the unique constraint of [users]. *)
Definition unique_rows (w : World) : Prop :=
  NoDup (map row_id (users w)) /\ NoDup (map row_email (users w)).

(** Every cache entry sits under the key of a stored user and was written
    with the expiry of [create_user]. *)
Definition cache_of_users (w : World) : Prop :=
  forall key s ttl,
    redis_data w !! key = Some (s, ttl) ->
    ttl = 3600 /\ exists r, r ∈ users w /\ key = user_key (row_id r).

(** A value that fits a [VARCHAR(100) NOT NULL] column as it comes. *)
Definition column_text (v : pyval) (s : string) : Prop :=
  v = PStr s /\ (String.length s <= 100)%nat.

(** Rows carry sequence values already drawn, ids and emails are unique,
    and the cache holds users of the table only. *)
Definition service_invariant (w : World) : Prop :=
  (forall r, r ∈ users w -> row_id r < users_id_seq w) /\
  unique_rows w /\ cache_of_users w.

End Handlers.

(** ** A JSON codec to run the handlers with

    A writer and a reader for the JSON the service exchanges with its cache
    (null, booleans, integers, strings, arrays, objects), to instantiate
    [Externals] in closed examples. *)
Module Codec.

Definition quote : ascii := ascii_of_nat 34.
Definition backslash : ascii := ascii_of_nat 92.

Fixpoint escape (s : string) : string :=
  match s with
  | EmptyString => EmptyString
  | String c s' =>
      if Ascii.eqb c quote || Ascii.eqb c backslash
      then String backslash (String c (escape s'))
      else String c (escape s')
  end.

Definition write_str (s : string) : string :=
  String quote (escape s) +:+ String quote "".

Fixpoint dumps (v : pyval) : option string :=
  match v with
  | PNone => Some "null"
  | PBool b => Some (if b then "true" else "false")
  | PInt n => Some (pretty n)
  | PFloat r => Some r
  | PStr s => Some (write_str s)
  | PDatetime _ => None
  | PList l =>
      (fix items (l : list pyval) : option (list string) :=
         match l with
         | [] => Some []
         | x :: l' =>
             match dumps x, items l' with
             | Some sx, Some sl => Some (sx :: sl)
             | _, _ => None
             end
         end) l
      ≫= λ parts, Some ("[" +:+ String.concat ", " parts +:+ "]")
  | PDict d =>
      (fix items (d : list (string * pyval)) : option (list string) :=
         match d with
         | [] => Some []
         | (k, x) :: d' =>
             match dumps x, items d' with
             | Some sx, Some sl => Some ((write_str k +:+ ": " +:+ sx) :: sl)
             | _, _ => None
             end
         end) d
      ≫= λ parts, Some ("{" +:+ String.concat ", " parts +:+ "}")
  end.

Inductive token : Type :=
  | TLBrace | TRBrace | TLBracket | TRBracket | TColon | TComma
  | TNull | TTrue | TFalse
  | TInt (n : Z)
  | TStr (s : string).

(** The characters of a string literal after its opening quote, and what
    follows its closing quote. *)
Fixpoint lex_str (s : string) : option (string * string) :=
  match s with
  | EmptyString => None
  | String c s' =>
      if Ascii.eqb c quote then Some (EmptyString, s')
      else if Ascii.eqb c backslash then
        match s' with
        | String c' s'' =>
            match lex_str s'' with
            | Some (lit, rest) => Some (String c' lit, rest)
            | None => None
            end
        | EmptyString => None
        end
      else
        match lex_str s' with
        | Some (lit, rest) => Some (String c lit, rest)
        | None => None
        end
  end.

Definition digit (c : ascii) : option Z :=
  let n := Z.of_nat (nat_of_ascii c) in
  if (48 <=? n) && (n <=? 57) then Some (n - 48) else None.

Fixpoint lex_digits (acc : Z) (s : string) : Z * string :=
  match s with
  | String c s' =>
      match digit c with
      | Some d => lex_digits (10 * acc + d) s'
      | None => (acc, s)
      end
  | EmptyString => (acc, s)
  end.

Definition is_space (c : ascii) : bool :=
  Ascii.eqb c " " || Ascii.eqb c (ascii_of_nat 10) ||
  Ascii.eqb c (ascii_of_nat 9) || Ascii.eqb c (ascii_of_nat 13).

Definition drop_prefix (p s : string) : option string :=
  if String.prefix p s
  then Some (String.substring (String.length p)
                              (String.length s - String.length p) s)
  else None.

Fixpoint lex (fuel : nat) (s : string) : option (list token) :=
  match fuel with
  | O => match s with EmptyString => Some [] | _ => None end
  | S fuel' =>
      match s with
      | EmptyString => Some []
      | String c s' =>
          let single t := cons t <$> lex fuel' s' in
          let word p t :=
            drop_prefix p s ≫= λ rest, cons t <$> lex fuel' rest in
          if is_space c then lex fuel' s'
          else if Ascii.eqb c "{" then single TLBrace
          else if Ascii.eqb c "}" then single TRBrace
          else if Ascii.eqb c "[" then single TLBracket
          else if Ascii.eqb c "]" then single TRBracket
          else if Ascii.eqb c ":" then single TColon
          else if Ascii.eqb c "," then single TComma
          else if Ascii.eqb c quote then
            lex_str s' ≫= λ '(lit, rest), cons (TStr lit) <$> lex fuel' rest
          else if Ascii.eqb c "n" then word "null" TNull
          else if Ascii.eqb c "t" then word "true" TTrue
          else if Ascii.eqb c "f" then word "false" TFalse
          else if Ascii.eqb c "-" then
            match s' with
            | String d _ =>
                match digit d with
                | Some _ =>
                    let '(n, rest) := lex_digits 0 s' in
                    cons (TInt (- n)) <$> lex fuel' rest
                | None => None
                end
            | EmptyString => None
            end
          else
            match digit c with
            | Some _ =>
                let '(n, rest) := lex_digits 0 s in
                cons (TInt n) <$> lex fuel' rest
            | None => None
            end
      end
  end.

Fixpoint parse (fuel : nat) (ts : list token) : option (pyval * list token) :=
  match fuel with
  | O => None
  | S fuel' =>
      let fix elements (n : nat) (ts : list token)
        : option (list pyval * list token) :=
        match n with
        | O => None
        | S n' =>
            match parse fuel' ts with
            | Some (v, TComma :: ts') =>
                match elements n' ts' with
                | Some (vs, ts'') => Some (v :: vs, ts'')
                | None => None
                end
            | Some (v, TRBracket :: ts') => Some ([v], ts')
            | _ => None
            end
        end in
      let fix members (n : nat) (ts : list token)
        : option (list (string * pyval) * list token) :=
        match n with
        | O => None
        | S n' =>
            match ts with
            | TStr k :: TColon :: ts' =>
                match parse fuel' ts' with
                | Some (v, TComma :: ts'') =>
                    match members n' ts'' with
                    | Some (kvs, ts3) => Some ((k, v) :: kvs, ts3)
                    | None => None
                    end
                | Some (v, TRBrace :: ts'') => Some ([(k, v)], ts'')
                | _ => None
                end
            | _ => None
            end
        end in
      match ts with
      | TNull :: ts' => Some (PNone, ts')
      | TTrue :: ts' => Some (PBool true, ts')
      | TFalse :: ts' => Some (PBool false, ts')
      | TInt n :: ts' => Some (PInt n, ts')
      | TStr s :: ts' => Some (PStr s, ts')
      | TLBracket :: TRBracket :: ts' => Some (PList [], ts')
      | TLBracket :: ts' =>
          match elements (List.length ts') ts' with
          | Some (vs, ts'') => Some (PList vs, ts'')
          | None => None
          end
      | TLBrace :: TRBrace :: ts' => Some (PDict [], ts')
      | TLBrace :: ts' =>
          match members (List.length ts') ts' with
          | Some (kvs, ts'') => Some (PDict kvs, ts'')
          | None => None
          end
      | _ => None
      end
  end.

Definition loads (s : string) : option pyval :=
  match lex (String.length s) s with
  | Some ts =>
      match parse (S (List.length ts)) ts with
      | Some (v, []) => Some v
      | _ => None
      end
  | None => None
  end.

Definition codec : Externals :=
  {| json_dumps v :=
       match dumps v with Some s => Ok s | None => Raise TypeError end;
     json_loads s :=
       match loads s with Some v => Ok v | None => Raise JSONDecodeError end;
     adapt_other v :=
       match v with
       | PInt n => Some (pretty n)
       | PBool b => Some (if b then "true" else "false")
       | _ => None
       end |}.

End Codec.

(** ** Worlds to run the handlers in *)

(** Both services up, nothing stored yet. *)
Definition fresh_world : World :=
  {| redis_client := true; redis_up := true; redis_data := ∅;
     db_up := true; db_fault := false; users := []; users_id_seq := 1;
     db_now := 1672531200; db_open := ∅; db_connects := 0;
     utcnow_iso := "2023-01-01T00:00:00" |}.

(** The cache server went away after the client was built. *)
Definition cache_down_world : World :=
  {| redis_client := true; redis_up := false; redis_data := ∅;
     db_up := true; db_fault := false; users := []; users_id_seq := 1;
     db_now := 1672531200; db_open := ∅; db_connects := 0;
     utcnow_iso := "2023-01-01T00:00:00" |}.

(** Jane's snapshot, as [create_user] writes it to the cache. *)
Definition jane_snapshot : string :=
  default EmptyString
    (Codec.dumps (user_data 1 (PStr "Jane Doe") (PStr "jane@example.com")
                            "2023-01-01T00:00:00")).

Definition jane_row : UserRow :=
  {| row_id := 1; row_name := "Jane Doe"; row_email := "jane@example.com";
     row_created_at := 1672531200 |}.

(** Jane is cached and the store is unreachable. *)
Definition store_down_world : World :=
  {| redis_client := true; redis_up := true;
     redis_data := {[ "user:1" := (jane_snapshot, 3600) ]};
     db_up := false; db_fault := false; users := [jane_row];
     users_id_seq := 2;
     db_now := 1672531260; db_open := ∅; db_connects := 0;
     utcnow_iso := "2023-01-01T00:01:00" |}.

(** Jane is stored and her cache entry has expired. *)
Definition expired_world : World :=
  {| redis_client := true; redis_up := true; redis_data := ∅;
     db_up := true; db_fault := false; users := [jane_row];
     users_id_seq := 2;
     db_now := 1672617600; db_open := ∅; db_connects := 1;
     utcnow_iso := "2023-01-02T00:00:00" |}.

Definition jane : pyval :=
  PDict [("name", PStr "Jane Doe"); ("email", PStr "jane@example.com")].

(** The process started while the cache server was away; the server is back
    and holds an entry. *)
Definition no_cache_world : World :=
  {| redis_client := false; redis_up := true;
     redis_data := {[ "user:1" := (jane_snapshot, 3600) ]};
     db_up := true; db_fault := false; users := [jane_row];
     users_id_seq := 2;
     db_now := 1672531260; db_open := ∅; db_connects := 1;
     utcnow_iso := "2023-01-01T00:01:00" |}.

Definition janet : pyval :=
  PDict [("name", PStr "Janet Doe"); ("email", PStr "janet@example.com")].

(** * Properties of the handlers *)

Section Properties.
Context {ext : Externals}.

(** Unfold a handler down to the world it runs in. *)
Ltac run :=
  unfold handle, detailed_health, get_users, create_user, get_user,
    get_user_cached, metrics, health_check, get_db_connection,
    psycopg2_connect, conn_close, conn_commit, execute_select_user,
    execute_select_users, redis_ping, redis_get, redis_setex,
    utcnow_isoformat, try_finally, try_except, bind, ret, raise, lift,
    get_world in *;
  simpl in *.

(** The same, with the insert statement unfolded as well. *)
Ltac run_insert := run; unfold execute_insert_user in *; simpl in *.

(** Split on every test the goal still branches on. *)
Ltac branches := repeat (case_match; simpl in *; simplify_eq).

(** Name the fields of a world, so that its flags are variables. *)
Ltac fields w :=
  destruct w as [client up cache dbup fault rows seq dbnow opened count now].

(** ** Health *)

(** C6: [GET /health] always answers 200; the [status] of its body is
    [degraded] exactly when the store check or the cache check fails, and
    [healthy] exactly when both succeed. *)
Theorem detailed_health_status (w : World) :
  (exists resp, fst (detailed_health w) = Ok resp /\ status resp = 200) /\
  (overall_status (fst (detailed_health w)) = Some (PStr "degraded") <->
     store_check_ok w = false \/ cache_check_ok w = false) /\
  (overall_status (fst (detailed_health w)) = Some (PStr "healthy") <->
     store_check_ok w = true /\ cache_check_ok w = true).
Proof.
  unfold store_check_ok, cache_check_ok. fields w.
  destruct client, up, dbup; run;
    (split; [eexists; split; reflexivity|]);
    split; split; intros; try done; intuition congruence.
Qed.

(** ** Validation of [POST /users] *)

Lemma missing_fields_dict (d : list (string * pyval)) :
  missing_fields (PDict d) =
  Ok (negb (dict_has "name" d && dict_has "email" d)).
Proof.
  unfold missing_fields. destruct d as [|kv d]; [reflexivity|]. simpl.
  by destruct (dict_has "name" (kv :: d)), (dict_has "email" (kv :: d)).
Qed.


(** The validation is a membership test, so it only fits a body that is a
    JSON object: on a number [in] raises, and the exception leaves the
    view. *)
Lemma create_user_number_body (n : Z) (w : World) :
  n <> 0 -> create_user (PInt n) w = (Raise TypeError, w).
Proof.
  intros Hn. unfold create_user, bind, lift, missing_fields. simpl.
  destruct (Z.eqb_spec n 0); [done|reflexivity].
Qed.

(** C10: an object that has both keys passes validation whatever their
    values are: the answer is never 400, a connection to the store is
    asked for, and with the store reachable the answer is the outcome of
    the insert statement run on the two values as they came. *)
Theorem create_user_presence_only (d : list (string * pyval))
    (name email : pyval) (w : World) :
  dict_get "name" d = Some name ->
  dict_get "email" d = Some email ->
  missing_fields (PDict d) = Ok false /\
  http_status (fst (create_user (PDict d) w)) <> 400 /\
  db_connects (snd (create_user (PDict d) w)) = S (db_connects w) /\
  (db_up w = true ->
   http_status (fst (create_user (PDict d) w)) =
     match fst (execute_insert_user name email w) with
     | Ok _ => 201
     | Raise IntegrityError => 409
     | Raise _ => 500
     end /\
   users (snd (create_user (PDict d) w)) =
     users (snd (execute_insert_user name email w))).
Proof.
  intros Hn He.
  assert (Hm : missing_fields (PDict d) = Ok false).
  { rewrite missing_fields_dict. unfold dict_has. by rewrite Hn, He. }
  split; [done|].
  unfold create_user, bind at 1, lift at 1. rewrite Hm.
  unfold py_getitem. rewrite Hn, He.
  fields w. unfold execute_insert_user. run.
  destruct dbup; simpl; [|repeat split; done].
  destruct fault; simpl; [repeat split; done|].
  destruct (adapt name) as [[|sn]|], (adapt email) as [[|se]|]; simpl;
    try (repeat split; done); branches; repeat split; done.
Qed.

(** ** The cache in front of [GET /users/<id>] *)

Lemma truthy_str (s : string) : s <> "" -> truthy (PStr s) = true.
Proof. intros Hs. simpl. by destruct (String.eqb_spec s ""). Qed.

(** C5: when the cache holds a JSON document under the user's key, the
    handler answers 200 with that document and leaves the world as it was:
    no connection to the store is asked for, so the answer is the same with
    the store unreachable. *)
Theorem get_user_cache_hit (w : World) (user_id : Z) (v : pyval) :
  cache_entry w user_id v ->
  get_user user_id w = (Ok (jsonify v 200), w).
Proof.
  intros (Hclient & s & Hget & Hs & Hv).
  apply truthy_str in Hs. fields w. run. subst client.
  destruct up; simpl in *; [|done].
  destruct (cache !! user_key user_id) as [[s' ttl]|]; simpl in *; [|done].
  injection Hget as ->. rewrite Hs, Hv. reflexivity.
Qed.

(** An entry that is empty, or that [json.loads] rejects, counts as a
    miss. *)
Lemma get_user_cached_unreadable (w : World) (user_id : Z) (s : string) (e : exn) :
  fst (redis_get (user_key user_id) w) = Ok (Some s) ->
  s = "" \/ json_loads s = Raise e ->
  get_user_cached user_id w = (Ok None, w).
Proof.
  intros Hget Hs. fields w. run.
  destruct client; [|done]. destruct up; simpl in *; [|done].
  destruct (cache !! user_key user_id) as [[s' ttl]|]; simpl in *; [|done].
  injection Hget as ->. destruct Hs as [-> | Hs]; [done|].
  rewrite Hs. by destruct (negb _).
Qed.

(** No path of [get_user] writes to the cache. *)
Lemma get_user_cache_unchanged (user_id : Z) (w : World) :
  redis_data (snd (get_user user_id w)) = redis_data w.
Proof.
  fields w. run. branches; reflexivity.
Qed.

(** C7: a request that misses the cache and reads the user from the store
    leaves the cache as it was. *)
Theorem get_user_store_read_keeps_cache (w : World) (user_id : Z) (row : UserRow) :
  fst (get_user_cached user_id w) = Ok None ->
  fst (get_user user_id w) = Ok (jsonify (row_dict row) 200) ->
  redis_data (snd (get_user user_id w)) = redis_data w.
Proof. intros _ _. apply get_user_cache_unchanged. Qed.

(** ** Store connections *)

Lemma health_check_releases : releases health_check.
Proof. intros w. fields w. run. done. Qed.

Lemma detailed_health_releases : releases detailed_health.
Proof.
  intros w. fields w. destruct client, up, dbup; run; set_solver.
Qed.

Lemma get_users_releases : releases get_users.
Proof.
  intros w. fields w. destruct dbup, fault; run; set_solver.
Qed.

Lemma get_user_releases (user_id : Z) : releases (get_user user_id).
Proof.
  intros w. fields w. run. branches; set_solver.
Qed.

Lemma create_user_releases (data : pyval) : releases (create_user data).
Proof.
  intros w. fields w. run_insert. branches; set_solver.
Qed.

(** Every route but [/metrics] closes the connection it opened, on each of
    its ways out. *)
Lemma handle_releases (r : request) :
  r <> GetMetrics -> releases (handle r).
Proof.
  destruct r; intros Hr; simpl;
    auto using health_check_releases, detailed_health_releases,
      get_users_releases, create_user_releases, get_user_releases.
  done.
Qed.

(** ** Cache failures *)

(** On every route but [/metrics] a cache call that raises is caught where
    it is made: the answer is the one the service gives without a cache
    client. *)
Lemma cache_failure_is_miss (r : request) (w : World) :
  r <> GetMetrics ->
  redis_up w = false ->
  fst (handle r w) = fst (handle r (disable_cache w)).
Proof.
  intros Hr Hup. fields w. simpl in Hup. subst up.
  destruct r; try done; unfold disable_cache; run_insert;
    branches; reflexivity.
Qed.

(** ** Metrics *)

(** While no cache call raises, [GET /metrics] answers 200 with a plain
    text of four lines, one per gauge, whatever the store does. *)
Lemma metrics_four_lines (w : World) :
  redis_client w = false \/ redis_up w = true ->
  exists text,
    fst (metrics w) =
      Ok {| status := 200; content_type := "text/plain";
            content := TextBody text |} /\
    Forall2 metric_line metric_names (lines text).
Proof.
  intros Hcache. fields w. simpl in Hcache.
  destruct client, up, dbup; try (destruct Hcache; discriminate); run;
    (eexists; split; [reflexivity|]); vm_compute;
    repeat constructor.
Qed.

(** Through a client that exists, a ping that raises leaves [metrics]
    uncaught. *)
Lemma metrics_ping_raises (w : World) :
  redis_client w = true -> redis_up w = false ->
  fst (metrics w) = Raise RedisConnectionError.
Proof.
  intros Hclient Hup. fields w. simpl in *. subst.
  destruct dbup; reflexivity.
Qed.

(** The connection [metrics] asks for to fill its gauge is not closed. *)
Lemma metrics_keeps_connection (w : World) :
  db_up w = true -> db_connects w ∈ db_open (snd (metrics w)).
Proof.
  intros Hup. fields w. simpl in *. subst. run.
  destruct client; [destruct up|]; simpl; set_solver.
Qed.

(** ** How table and cache evolve *)

Lemma user_key_inj (a b : Z) : user_key a = user_key b -> a = b.
Proof.
  unfold user_key. intros H. simpl in H. injection H as H.
  by apply (inj pretty).
Qed.

Lemma evolves_refl (w : World) : evolves w w.
Proof.
  repeat split; [lia| |by right].
  exists []. split; [by rewrite app_nil_r|]. intros r Hr. by apply elem_of_nil in Hr.
Qed.

Lemma evolves_trans (w1 w2 w3 : World) :
  evolves w1 w2 -> evolves w2 w3 -> evolves w1 w3.
Proof.
  intros (Hs1 & (n1 & Hu1 & Hn1) & Hc1) (Hs2 & (n2 & Hu2 & Hn2) & Hc2).
  repeat split; [lia| |].
  - exists (n1 ++ n2)%list. split; [by rewrite Hu2, Hu1, app_assoc|].
    intros r [Hr|Hr]%elem_of_app; [apply Hn1 in Hr|apply Hn2 in Hr]; lia.
  - intros k Hk.
    destruct (Hc2 k) as [H2|H2]; [lia|by left|].
    destruct (Hc1 k) as [H1|H1]; [lia| |]; rewrite H2, H1; auto.
Qed.

Lemma same_data_evolves (w w' : World) : same_data w w' -> evolves w w'.
Proof.
  intros (Hu & Hs & Hc). repeat split; [lia| |rewrite Hc; by right].
  exists []. split; [by rewrite Hu, app_nil_r|]. intros r Hr. by apply elem_of_nil in Hr.
Qed.

Lemma environment_evolves (w w' : World) : environment w w' -> evolves w w'.
Proof.
  intros (Hu & Hs & Hc). repeat split; [lia| |intros k _; apply Hc].
  exists []. split; [by rewrite Hu, app_nil_r|]. intros r Hr. by apply elem_of_nil in Hr.
Qed.

(** The handlers that read: nothing of table or cache changes. *)
Lemma reads_same_data (r : request) (w : World) :
  (forall data, r <> PostUsers data) -> same_data w (snd (handle r w)).
Proof.
  intros Hr. fields w. destruct r; try (by destruct (Hr data));
    run; branches; done.
Qed.

Lemma create_user_evolves (data : pyval) (w : World) :
  evolves w (snd (create_user data w)).
Proof.
  fields w. run_insert. branches;
    try (apply same_data_evolves; done);
    (split; [simpl; lia|split; simpl]);
    try (exists []; split; [by rewrite app_nil_r|];
         intros r Hr; by apply elem_of_nil in Hr);
    try (eexists [_]; split; [reflexivity|];
         intros r ->%list_elem_of_singleton; simpl; lia);
    try (intros k Hk; by right);
    intros k Hk; right; apply lookup_insert_ne; intros ->%user_key_inj; lia.
Qed.

Lemma step_evolves (w w' : World) : step w w' -> evolves w w'.
Proof.
  intros [r w0|w0 w1 Henv]; [|by apply environment_evolves].
  destruct r; try (apply same_data_evolves, reads_same_data; done).
  apply create_user_evolves.
Qed.

Lemma steps_evolve (w w' : World) : rtc step w w' -> evolves w w'.
Proof.
  induction 1 as [|w1 w2 w3 H12 _ IH]; [apply evolves_refl|].
  eapply evolves_trans; [by apply step_evolves|done].
Qed.

Lemma evolves_coherent (w w' : World) :
  coherent w -> evolves w w' -> coherent w'.
Proof.
  intros [Hrows Hkeys] (Hs & (new & Hu & Hnew) & Hc). split.
  - intros r. rewrite Hu. intros [Hr|Hr]%elem_of_app.
    + apply Hrows in Hr. lia.
    + apply Hnew in Hr. lia.
  - intros k Hk. destruct (Hc k) as [H|H]; [lia|done|].
    rewrite H. apply Hkeys. lia.
Qed.

(** From an empty table and an empty cache the service only reaches
    coherent worlds. *)
Lemma reachable_coherent (w : World) : reachable w -> coherent w.
Proof.
  intros (w0 & (Hu & Hs & Hc) & Hsteps).
  apply (evolves_coherent w0); [|by apply steps_evolve].
  split.
  - intros r. rewrite Hu. intros Hr. by apply elem_of_nil in Hr.
  - intros k _. rewrite Hc. apply lookup_empty.
Qed.

(** ** Creating users *)

(** What a 201 from [create_user] tells: the table had no row with the
    email, the row was appended under the next sequence value, the answer
    carries that id, and the cache is as it was or holds the snapshot under
    the user's key. *)
Lemma create_user_created (d : list (string * pyval)) (name email : string)
    (w : World) (resp : Response) :
  dict_get "name" d = Some (PStr name) ->
  dict_get "email" d = Some (PStr email) ->
  fst (create_user (PDict d) w) = Ok resp ->
  status resp = 201 ->
  let id := users_id_seq w in
  let w1 := snd (create_user (PDict d) w) in
  resp = jsonify (PDict [("id", PInt id); ("name", PStr name);
                         ("email", PStr email);
                         ("message", PStr "User created successfully")]) 201 /\
  Nat.leb (String.length email) 100 = true /\
  users w1 = (users w ++ [{| row_id := id; row_name := name;
                             row_email := email;
                             row_created_at := db_now w |}])%list /\
  users_id_seq w1 = id + 1 /\
  (redis_data w1 = redis_data w \/
   exists s,
     json_dumps (user_data id (PStr name) (PStr email) (utcnow_iso w)) = Ok s /\
     redis_data w1 = <[user_key id := (s, 3600)]> (redis_data w)).
Proof.
  intros Hn He. unfold create_user, bind at 1, lift at 1, py_getitem.
  rewrite missing_fields_dict. unfold dict_has. rewrite Hn, He. simpl.
  fields w. run_insert. intros Hresp Hstatus.
  branches; simpl in *; try discriminate;
    match goal with
    | H : negb (_ && _) = false |- _ =>
        apply negb_false_iff, andb_prop in H as [_ Hfit]
    end;
    (repeat split; [exact Hfit|]);
    first [by left | right; eexists; split; [eassumption|reflexivity]].
Qed.

(** With the store reachable, a second row with an email of the table is
    refused, and the refusal is answered 409. *)
Lemma create_user_conflict (d : list (string * pyval)) (name email : string)
    (w : World) :
  dict_get "name" d = Some (PStr name) ->
  dict_get "email" d = Some (PStr email) ->
  db_up w = true -> db_fault w = false ->
  (String.length name <= 100)%nat ->
  Nat.leb (String.length email) 100 = true ->
  email_taken email (users w) = true ->
  fst (create_user (PDict d) w) =
  Ok (jsonify (error_body "Email already exists") 409).
Proof.
  intros Hn He Hup Hfault Hname Hemail Htaken.
  unfold create_user, bind at 1, lift at 1, py_getitem.
  rewrite missing_fields_dict. unfold dict_has. rewrite Hn, He. simpl.
  fields w. simpl in *. subst. run_insert.
  apply Nat.leb_le in Hname. rewrite Hname, Hemail, Htaken. reflexivity.
Qed.

Lemma email_taken_elem (email : string) (rows : list UserRow) (r : UserRow) :
  r ∈ rows -> row_email r = email -> email_taken email rows = true.
Proof.
  intros Hr He. unfold email_taken. apply existsb_exists.
  exists r. split; [by apply list_elem_of_In|]. by apply String.eqb_eq.
Qed.

(** C9: once a user was created with an email, whatever the service and
    its environment did since, a request to create a user with the same
    email that reaches the store is answered 409. *)
Theorem duplicate_email_conflict (d1 d2 : list (string * pyval))
    (name1 name2 email : string) (w w2 : World) (resp1 : Response) :
  dict_get "name" d1 = Some (PStr name1) ->
  dict_get "email" d1 = Some (PStr email) ->
  dict_get "name" d2 = Some (PStr name2) ->
  dict_get "email" d2 = Some (PStr email) ->
  (String.length name2 <= 100)%nat ->
  fst (create_user (PDict d1) w) = Ok resp1 ->
  status resp1 = 201 ->
  rtc step (snd (create_user (PDict d1) w)) w2 ->
  db_up w2 = true -> db_fault w2 = false ->
  fst (create_user (PDict d2) w2) =
  Ok (jsonify (error_body "Email already exists") 409).
Proof.
  intros Hn1 He1 Hn2 He2 Hlen Hresp Hstatus Hsteps Hup Hfault.
  destruct (create_user_created d1 name1 email w resp1 Hn1 He1 Hresp Hstatus)
    as (_ & Hfits & Hrows & _).
  apply steps_evolve in Hsteps as (_ & (new & Hrows2 & _) & _).
  apply (create_user_conflict d2 name2 email); try done.
  eapply email_taken_elem.
  - rewrite Hrows2, Hrows. apply elem_of_app. left.
    apply elem_of_app. right. by apply list_elem_of_singleton.
  - reflexivity.
Qed.

(** ** Reading a user back *)

Lemma find_app_skip {A} (f : A -> bool) (l1 l2 : list A) :
  (forall x, x ∈ l1 -> f x = false) -> find f (l1 ++ l2) = find f l2.
Proof.
  induction l1 as [|x l1 IH]; intros Hl1; [reflexivity|]. simpl.
  rewrite (Hl1 x) by apply list_elem_of_here.
  apply IH. intros y Hy. apply Hl1. by apply list_elem_of_further.
Qed.

(** With the store reachable, [get_user] answers 200 with the user's row,
    or with what the cache entry under the user's key reads as. *)
Lemma get_user_answer (w : World) (user_id : Z) (row : UserRow) (good : pyval) :
  db_up w = true -> db_fault w = false ->
  find (fun r => row_id r =? user_id) (users w) = Some row ->
  (forall s ttl v,
     redis_data w !! user_key user_id = Some (s, ttl) ->
     json_loads s = Ok v -> v = good) ->
  fst (get_user user_id w) = Ok (jsonify (row_dict row) 200) \/
  fst (get_user user_id w) = Ok (jsonify good 200).
Proof.
  intros Hup Hfault Hfind Hcache. fields w. simpl in *. subst. run.
  branches; try (by left). right. do 2 f_equal.
  destruct (cache !! user_key user_id) as [[s' ttl]|] eqn:Hs; [|done].
  simpl in *. simplify_eq. by eapply Hcache.
Qed.

(** C8: in a coherent world, when [create_user] answers 201 with an id for
    a name and an email, then, whatever the service and its environment do
    next, a [get_user] of that id that can reach the store answers 200 with
    a record of that id, name and email. *)
Theorem create_then_get_user (d : list (string * pyval)) (name email : string)
    (w w2 : World) (resp : Response) (user_id : Z) :
  coherent w ->
  dict_get "name" d = Some (PStr name) ->
  dict_get "email" d = Some (PStr email) ->
  fst (create_user (PDict d) w) = Ok resp ->
  status resp = 201 ->
  response_member "id" resp = Some (PInt user_id) ->
  snapshot_reads_back
    (user_data user_id (PStr name) (PStr email) (utcnow_iso w)) ->
  rtc step (snd (create_user (PDict d) w)) w2 ->
  db_up w2 = true -> db_fault w2 = false ->
  exists record,
    fst (get_user user_id w2) = Ok (jsonify (PDict record) 200) /\
    dict_get "id" record = Some (PInt user_id) /\
    dict_get "name" record = Some (PStr name) /\
    dict_get "email" record = Some (PStr email).
Proof.
  intros [Hrows Hkeys] Hn He Hresp Hstatus Hid Hjson Hsteps Hup Hfault.
  destruct (create_user_created d name email w resp Hn He Hresp Hstatus)
    as (-> & _ & Hrows1 & Hseq1 & Hcache1).
  injection Hid as <-.
  apply steps_evolve in Hsteps as (_ & (new & Hrows2 & _) & Hcache2).
  set (row := {| row_id := users_id_seq w; row_name := name;
                 row_email := email; row_created_at := db_now w |}) in *.
  assert (Hfind : find (fun r => row_id r =? users_id_seq w) (users w2)
                  = Some row).
  { rewrite Hrows2, Hrows1, <- app_assoc, find_app_skip.
    - simpl. by rewrite Z.eqb_refl.
    - intros x Hx%Hrows. apply Z.eqb_neq. lia. }
  destruct (get_user_answer w2 (users_id_seq w) row
              (user_data (users_id_seq w) (PStr name) (PStr email)
                         (utcnow_iso w)) Hup Hfault Hfind) as [Hget|Hget].
  - intros s ttl v Hs Hv.
    destruct (Hcache2 (users_id_seq w)) as [Hnone|Hsame]; [lia|congruence|].
    rewrite Hsame in Hs. destruct Hcache1 as [Hc|(s' & Hdumps & Hc)].
    + rewrite Hc, Hkeys in Hs by lia. discriminate.
    + rewrite Hc, lookup_insert_eq in Hs. injection Hs as <- <-.
      by apply (Hjson s').
  - eexists. split; [exact Hget|]. by repeat split.
  - eexists. split; [exact Hget|]. by repeat split.
Qed.

(** * Further properties *)

(** ** Reading users *)

Lemma find_none_absent (user_id : Z) (rows : list UserRow) :
  (forall r, r ∈ rows -> row_id r <> user_id) ->
  find (fun r => row_id r =? user_id) rows = None.
Proof.
  induction rows as [|x rows IH]; intros Hrows; [reflexivity|]. simpl.
  destruct (Z.eqb_spec (row_id x) user_id) as [Heq|_].
  - by destruct (Hrows x (list_elem_of_here _ _)).
  - apply IH. intros r Hr. apply Hrows. by apply list_elem_of_further.
Qed.

Lemma find_unique_id (row : UserRow) (rows : list UserRow) :
  NoDup (map row_id rows) -> row ∈ rows ->
  find (fun r => row_id r =? row_id row) rows = Some row.
Proof.
  induction rows as [|x rows IH]; intros Hnd Hrow; [by apply elem_of_nil in Hrow|].
  simpl in *. apply NoDup_cons in Hnd as [Hx Hnd].
  apply elem_of_cons in Hrow as [->|Hrow]; [by rewrite Z.eqb_refl|].
  destruct (Z.eqb_spec (row_id x) (row_id row)) as [Heq|_]; [|by apply IH].
  destruct Hx. rewrite Heq. apply list_elem_of_In, in_map. by apply list_elem_of_In.
Qed.

(** X1: an id with no cache entry and no row is answered 404 when the
    store can be read. *)
Theorem get_user_not_found (w : World) (user_id : Z) :
  redis_data w !! user_key user_id = None ->
  (forall r, r ∈ users w -> row_id r <> user_id) ->
  db_up w = true -> db_fault w = false ->
  fst (get_user user_id w) = Ok (jsonify (error_body "User not found") 404).
Proof.
  intros Hcache Hrows Hup Hfault. apply find_none_absent in Hrows.
  fields w. simpl in *. subst.
  destruct client, up; run; rewrite ?Hcache; simpl; rewrite Hrows; reflexivity.
Qed.

(** X2: when the cache gives nothing and the store cannot be read, the
    answer is 500, with the message of the failing step, and neither table
    nor cache is touched. *)
Theorem get_user_store_failure (w : World) (user_id : Z) :
  redis_data w !! user_key user_id = None ->
  db_up w = false \/ db_fault w = true ->
  fst (get_user user_id w) =
    Ok (jsonify (error_body (if db_up w then "Failed to fetch user"
                             else "Database connection failed")) 500) /\
  same_data w (snd (get_user user_id w)).
Proof.
  intros Hcache Hstore. fields w. simpl in *.
  destruct Hstore as [-> | ->]; destruct client, up; try destruct dbup; run;
    rewrite ?Hcache; done.
Qed.

(** X3: when the cache cannot serve the request (no client, a call that
    raises, or no entry), a stored user is answered 200 from its row, with
    the four columns. *)
Theorem get_user_from_store (w : World) (row : UserRow) :
  redis_client w = false \/ redis_up w = false \/
    redis_data w !! user_key (row_id row) = None ->
  NoDup (map row_id (users w)) -> row ∈ users w ->
  db_up w = true -> db_fault w = false ->
  fst (get_user (row_id row) w) =
    Ok (jsonify (PDict [("id", PInt (row_id row));
                        ("name", PStr (row_name row));
                        ("email", PStr (row_email row));
                        ("created_at", PDatetime (row_created_at row))]) 200).
Proof.
  intros Hcache Hnd Hrow Hup Hfault.
  pose proof (find_unique_id row (users w) Hnd Hrow) as Hfind.
  fields w. simpl in *. subst.
  destruct Hcache as [-> | [-> | Hnone]]; [|destruct client|destruct client, up];
    run; rewrite ?Hnone; simpl; rewrite Hfind; reflexivity.
Qed.

(** ** Listing users *)

Lemma insert_desc_perm (r : UserRow) (l : list UserRow) :
  insert_desc r l ≡ₚ r :: l.
Proof.
  induction l as [|x l IH]; [done|]. simpl.
  destruct (row_created_at x <? row_created_at r); [done|].
  rewrite IH. apply Permutation_swap.
Qed.

Lemma order_by_created_at_desc_perm (rows : list UserRow) :
  order_by_created_at_desc rows ≡ₚ rows.
Proof.
  induction rows as [|r rows IH]; [done|].
  unfold order_by_created_at_desc in *. simpl.
  by rewrite insert_desc_perm, IH.
Qed.

Lemma insert_desc_sorted (r : UserRow) (l : list UserRow) :
  newest_first l -> newest_first (insert_desc r l).
Proof.
  unfold newest_first.
  induction l as [|x l IH]; intros Hl; simpl.
  - repeat constructor.
  - destruct (Z.ltb_spec (row_created_at x) (row_created_at r)) as [Hlt|Hge].
    + constructor; [done|]. constructor. lia.
    + apply Sorted_inv in Hl as [Hl Hx]. constructor; [by apply IH|].
      destruct l as [|y l]; simpl.
      * constructor. lia.
      * destruct (row_created_at y <? row_created_at r); constructor;
          [lia|by inversion Hx].
Qed.

Lemma order_by_created_at_desc_sorted (rows : list UserRow) :
  newest_first (order_by_created_at_desc rows).
Proof.
  induction rows as [|r rows IH]; [constructor|].
  by apply insert_desc_sorted.
Qed.

(** X4: with the store readable, [GET /users] answers 200 with one object
    per row of the table, every row once, newest first. *)
Theorem get_users_lists_rows (w : World) :
  db_up w = true -> db_fault w = false ->
  exists rows,
    fst (get_users w) = Ok (jsonify (PList (map row_dict rows)) 200) /\
    rows ≡ₚ users w /\ newest_first rows.
Proof.
  intros Hup Hfault. exists (order_by_created_at_desc (users w)).
  split; [|split].
  - fields w. simpl in *. subst. reflexivity.
  - apply order_by_created_at_desc_perm.
  - apply order_by_created_at_desc_sorted.
Qed.

(** X5: when the store cannot be read, [GET /users] answers 500 with the
    message of the failing step. *)
Theorem get_users_store_failure (w : World) :
  db_up w = false \/ db_fault w = true ->
  fst (get_users w) =
    Ok (jsonify (error_body (if db_up w then "Failed to fetch users"
                             else "Database connection failed")) 500).
Proof.
  intros Hstore. fields w. simpl in *.
  destruct Hstore as [-> | ->]; try destruct dbup; reflexivity.
Qed.

(** ** What a request can change *)

(** X6: a route that reads (every route but [POST /users]) returns the
    world as it was up to the bookkeeping of connections: flags, table,
    sequence, cache and clocks are untouched. *)
Theorem read_routes_keep_world (r : request) (w : World) :
  (forall data, r <> PostUsers data) ->
  let w' := snd (handle r w) in
  w' = set_conns (db_open w') (db_connects w') w.
Proof.
  intros Hr. fields w.
  destruct r; try (by destruct (Hr data)); run; branches; reflexivity.
Qed.

(** X7: a request connects to the store at most once: no handler retries
    and none opens a second connection. *)
Theorem one_connection_per_request (r : request) (w : World) :
  (db_connects w <= db_connects (snd (handle r w)) <= S (db_connects w))%nat.
Proof.
  fields w. destruct r; run_insert; branches; cbn; lia.
Qed.

(** ** Creating users, case by case *)

(** X8: whatever the body, [create_user] appends exactly one row, under the
    next sequence value and the backend's clock, when it answers 201, and
    leaves table and cache as they were when it answers anything else. *)
Theorem create_user_row_iff_created (data : pyval) (w : World) :
  let out := create_user data w in
  (http_status (fst out) = 201 /\
   exists row, users (snd out) = (users w ++ [row])%list /\
               row_id row = users_id_seq w /\
               row_created_at row = db_now w) \/
  (http_status (fst out) <> 201 /\
   users (snd out) = users w /\ redis_data (snd out) = redis_data w).
Proof.
  fields w. run_insert.
  branches; try (right; repeat split; done);
    left; (split; [reflexivity|]); eexists; repeat split.
Qed.

(** X9: the answer of [create_user] and what it does to the table do not
    depend on the cache: not on the client, not on the server being
    reachable, not on the entries. *)
Theorem create_user_answer_ignores_cache (data : pyval) (w : World)
    (client up : bool) (entries : gmap string (string * Z)) :
  let out := create_user data w in
  let out' := create_user data (with_cache client up entries w) in
  fst out' = fst out /\
  users (snd out') = users (snd out) /\
  users_id_seq (snd out') = users_id_seq (snd out).
Proof.
  destruct w as [client0 up0 cache dbup fault rows seq dbnow opened count now].
  unfold with_cache. run_insert. branches; done.
Qed.

(** The cache after a 201 that wrote its snapshot. *)
Lemma create_user_cache_written (d : list (string * pyval))
    (name email : pyval) (w : World) (resp : Response) (s : string) :
  dict_get "name" d = Some name ->
  dict_get "email" d = Some email ->
  redis_client w = true -> redis_up w = true ->
  fst (create_user (PDict d) w) = Ok resp -> status resp = 201 ->
  json_dumps (user_data (users_id_seq w) name email (utcnow_iso w)) = Ok s ->
  redis_data (snd (create_user (PDict d) w)) =
  <[user_key (users_id_seq w) := (s, 3600)]> (redis_data w).
Proof.
  intros Hn He Hclient Hup. unfold create_user, bind at 1, lift at 1, py_getitem.
  rewrite missing_fields_dict. unfold dict_has. rewrite Hn, He. simpl.
  fields w. simpl in *. subst. run_insert. intros Hresp Hstatus Hdumps.
  branches; simpl in *; try discriminate; congruence.
Qed.

(** X10: when [create_user] answers 201 through a cache client whose server
    is reachable, and [json.dumps] writes the snapshot, the snapshot is in
    the cache under the key of the new id with an expiry of 3600, and every
    other key is as it was. *)
Theorem create_user_caches_snapshot (d : list (string * pyval))
    (name email : pyval) (w : World) (resp : Response) (s : string) :
  dict_get "name" d = Some name ->
  dict_get "email" d = Some email ->
  redis_client w = true -> redis_up w = true ->
  fst (create_user (PDict d) w) = Ok resp -> status resp = 201 ->
  json_dumps (user_data (users_id_seq w) name email (utcnow_iso w)) = Ok s ->
  let w1 := snd (create_user (PDict d) w) in
  redis_data w1 !! user_key (users_id_seq w) = Some (s, 3600) /\
  forall key, key <> user_key (users_id_seq w) ->
              redis_data w1 !! key = redis_data w !! key.
Proof.
  intros Hn He Hclient Hup Hresp Hstatus Hdumps w1. unfold w1.
  rewrite (create_user_cache_written d name email w resp s) by done.
  split; [apply lookup_insert_eq|].
  intros key Hkey. by apply lookup_insert_ne.
Qed.

(** X11: a body with both keys that meets a store it cannot use is answered
    500, with the message of the failing step, and nothing is stored or
    cached. *)
Theorem create_user_store_failure (d : list (string * pyval))
    (name email : pyval) (w : World) :
  dict_get "name" d = Some name ->
  dict_get "email" d = Some email ->
  db_up w = false \/ db_fault w = true ->
  fst (create_user (PDict d) w) =
    Ok (jsonify (error_body (if db_up w then "Failed to create user"
                             else "Database connection failed")) 500) /\
  same_data w (snd (create_user (PDict d) w)).
Proof.
  intros Hn He Hstore. unfold create_user, bind at 1, lift at 1, py_getitem.
  rewrite missing_fields_dict. unfold dict_has. rewrite Hn, He. simpl.
  fields w. simpl in *.
  destruct Hstore as [-> | ->]; try destruct dbup; run_insert; done.
Qed.

(** X12: a body that is not a JSON object never creates a user: the answer
    is 400 or 500 (an array or a string that mentions both keys passes the
    membership tests and fails at the subscript, a number fails at the
    test), and table, sequence and cache are as they were. *)
Theorem create_user_non_object_body (data : pyval) (w : World) :
  (forall d, data <> PDict d) ->
  (http_status (fst (create_user data w)) = 400 \/
   http_status (fst (create_user data w)) = 500) /\
  same_data w (snd (create_user data w)).
Proof.
  intros Hdata. fields w.
  destruct data; try (by destruct (Hdata d)); run_insert; branches;
    (split; [by auto|done]).
Qed.

(** X13: a null name or email passes validation and is refused by the
    table; the handler reports the refusal as 409 "Email already exists",
    and no row is stored. *)
Theorem create_user_null_is_conflict (d : list (string * pyval))
    (name email : pyval) (w : World) :
  dict_get "name" d = Some name ->
  dict_get "email" d = Some email ->
  name = PNone \/ (exists s, column_text name s) ->
  email = PNone \/ (exists s, column_text email s) ->
  name = PNone \/ email = PNone ->
  db_up w = true -> db_fault w = false ->
  fst (create_user (PDict d) w) =
    Ok (jsonify (error_body "Email already exists") 409) /\
  users (snd (create_user (PDict d) w)) = users w.
Proof.
  intros Hn He Hname Hemail Hnull Hup Hfault.
  unfold create_user, bind at 1, lift at 1, py_getitem.
  rewrite missing_fields_dict. unfold dict_has. rewrite Hn, He. simpl.
  fields w. simpl in *. subst. run_insert.
  destruct Hname as [-> | (sn & -> & Hsn%Nat.leb_le)];
    destruct Hemail as [-> | (se & -> & Hse%Nat.leb_le)];
    simpl; rewrite ?Hsn, ?Hse; simpl; try done.
  by destruct Hnull.
Qed.

(** ** Answers *)




(** ** Health and metrics, entry by entry *)

(** X16: the [services] object of [/health] reports each service by its
    own check: [database] by the connection attempt, [redis] by the ping
    through a client that exists. *)
Theorem detailed_health_services (w : World) :
  service_state "database" (fst (detailed_health w)) =
    Some (health_word (store_check_ok w)) /\
  service_state "redis" (fst (detailed_health w)) =
    Some (health_word (cache_check_ok w)).
Proof.
  unfold store_check_ok, cache_check_ok. fields w.
  destruct client, up, dbup; split; reflexivity.
Qed.

(** X17: while no cache call raises, the metrics text is these four lines:
    two constants, 1 or 0 for a store that accepts a connection or not, and
    1 or 0 for a cache client that exists or not. *)
Theorem metrics_gauges (w : World) :
  redis_client w = false \/ redis_up w = true ->
  exists text,
    fst (metrics w) =
      Ok {| status := 200; content_type := "text/plain";
            content := TextBody text |} /\
    lines text =
      ["http_requests_total 1"; "http_request_duration_seconds 0.1";
       "database_connections_active " +:+ (if db_up w then "1" else "0");
       "redis_connections_active " +:+ (if redis_client w then "1" else "0")].
Proof.
  intros Hcache. fields w. simpl in Hcache.
  destruct client, up, dbup; try (destruct Hcache; discriminate); run;
    (eexists; split; [reflexivity|]); vm_compute; reflexivity.
Qed.

(** ** A service without its cache *)

(** X18: with [redis_client = None] no route reads or writes the cache:
    its entries stay as they are, and the answer is the same whatever the
    server holds and whether or not it is reachable. *)
Theorem disabled_cache_is_ignored (r : request) (w : World) (up : bool)
    (entries : gmap string (string * Z)) :
  redis_client w = false ->
  redis_data (snd (handle r w)) = redis_data w /\
  fst (handle r (with_cache false up entries w)) = fst (handle r w).
Proof.
  intros Hclient.
  destruct w as [client up0 cache dbup fault rows seq dbnow opened count now].
  simpl in Hclient. subst. unfold with_cache.
  destruct r; run_insert; branches; done.
Qed.

(** X19: the client the module builds at import exists exactly when the
    server answered the first ping, and [/metrics] answers 200 right after
    startup either way: its ping can only raise once the server has gone
    away after the client was built. *)
Theorem startup_client (w : World) :
  redis_client (init_redis_client w) = redis_up w /\
  exists resp,
    fst (metrics (init_redis_client w)) = Ok resp /\ status resp = 200.
Proof.
  fields w. unfold init_redis_client. run.
  destruct up, dbup; (split; [reflexivity|]); eexists; split; reflexivity.
Qed.

(** ** Creating the tables *)

(** X20: with the store usable, [init_database] returns [True] and both
    tables exist afterwards, next to the tables there were; run again on
    the result it changes nothing. *)
Theorem init_database_creates (w w2 : World) (tables : gset string) :
  db_up w = true -> db_fault w = false ->
  db_up w2 = true -> db_fault w2 = false ->
  let first := init_database w tables in
  first.1.1 = true /\
  first.2 = {["users"; "visits"]} ∪ tables /\
  (init_database w2 first.2).2 = first.2.
Proof.
  intros Hup Hfault Hup2 Hfault2. fields w.
  destruct w2 as [client2 up2 cache2 dbup2 fault2 rows2 seq2 dbnow2 opened2
                    count2 now2].
  simpl in *. subst. unfold init_database, create_table_if_not_exists. run.
  repeat split; set_solver.
Qed.

(** X21: when the store cannot be used, [init_database] returns [False]
    without raising and the tables are as they were. *)
Theorem init_database_failure (w : World) (tables : gset string) :
  db_up w = false \/ db_fault w = true ->
  (init_database w tables).1.1 = false /\
  (init_database w tables).2 = tables.
Proof.
  intros Hstore. fields w. simpl in *.
  unfold init_database, create_table_if_not_exists.
  destruct Hstore as [-> | ->]; try destruct dbup; run; done.
Qed.

(** X22: on every path [init_database] closes the connection it opened,
    drops no table, and leaves rows, sequence and cache alone. *)
Theorem init_database_keeps (w : World) (tables : gset string) :
  let out := init_database w tables in
  db_open out.1.2 ⊆ db_open w /\
  tables ⊆ out.2 /\
  same_data w out.1.2.
Proof.
  fields w. unfold init_database, create_table_if_not_exists.
  destruct dbup, fault; run; repeat split; set_solver.
Qed.

(** ** Invariants of the running service *)

(** What [create_user] can do to the table, and to the cache. *)
Lemma create_user_table (data : pyval) (w : World) :
  let w' := snd (create_user data w) in
  users_id_seq w <= users_id_seq w' /\
  (users w' = users w /\ redis_data w' = redis_data w \/
   exists row,
     users w' = (users w ++ [row])%list /\
     row_id row = users_id_seq w /\ users_id_seq w' = users_id_seq w + 1 /\
     email_taken (row_email row) (users w) = false /\
     (redis_data w' = redis_data w \/
      exists s, redis_data w' =
                <[user_key (users_id_seq w) := (s, 3600)]> (redis_data w))).
Proof.
  fields w. run_insert.
  branches; (split; [cbn; lia|]); try (left; done);
    right; eexists; (repeat split; [eassumption|]);
    first [by left | right; by eexists].
Qed.

Lemma email_not_taken (email : string) (rows : list UserRow) :
  email_taken email rows = false -> email ∉ map row_email rows.
Proof.
  intros Hfree Hin. apply list_elem_of_In, in_map_iff in Hin as (r & He & Hr).
  assert (email_taken email rows = true); [|congruence].
  apply list_elem_of_In in Hr. by apply (email_taken_elem email rows r).
Qed.

Lemma invariant_same_rows (w w1 : World) :
  service_invariant w ->
  users w1 = users w -> users_id_seq w <= users_id_seq w1 ->
  (forall key, redis_data w1 !! key = None \/
               redis_data w1 !! key = redis_data w !! key) ->
  service_invariant w1.
Proof.
  intros (Hseq & Hunique & Hcache) Hu Hs Hc.
  unfold service_invariant, unique_rows, cache_of_users in *. rewrite Hu.
  split; [|split; [done|]].
  - intros r Hr%Hseq. lia.
  - intros key s ttl Hk. destruct (Hc key) as [Hn|Hn]; [congruence|].
    rewrite Hn in Hk. by apply Hcache in Hk.
Qed.

Lemma invariant_new_row (w w1 : World) (row : UserRow) :
  service_invariant w ->
  users w1 = (users w ++ [row])%list ->
  row_id row = users_id_seq w -> users_id_seq w1 = users_id_seq w + 1 ->
  email_taken (row_email row) (users w) = false ->
  (redis_data w1 = redis_data w \/
   exists s, redis_data w1 =
             <[user_key (users_id_seq w) := (s, 3600)]> (redis_data w)) ->
  service_invariant w1.
Proof.
  intros (Hseq & [Hids Hemails] & Hcache) Hu Hid Hs Hfree Hc.
  unfold service_invariant, unique_rows, cache_of_users in *. rewrite Hu.
  split; [|split; [split|]].
  - intros r [Hr%Hseq | ->%list_elem_of_singleton]%elem_of_app; lia.
  - rewrite map_app. apply NoDup_app. split; [done|]. split.
    + intros id Hin [->|[]%elem_of_nil]%elem_of_cons.
      apply list_elem_of_In, in_map_iff in Hin as (r & Hr & Hin).
      apply list_elem_of_In, Hseq in Hin. lia.
    + apply NoDup_singleton.
  - rewrite map_app. apply NoDup_app. split; [done|]. split.
    + intros e Hin [->|[]%elem_of_nil]%elem_of_cons.
      by apply (email_not_taken (row_email row) (users w)).
    + apply NoDup_singleton.
  - intros key s ttl Hk. destruct Hc as [Hc|[s' Hc]]; rewrite Hc in Hk.
    + apply Hcache in Hk as [? (r & Hr & ?)]. split; [done|].
      exists r. split; [|done]. apply elem_of_app. by left.
    + destruct (decide (key = user_key (users_id_seq w))) as [->|Hne].
      * rewrite lookup_insert_eq in Hk. injection Hk as <- <-.
        split; [done|]. exists row. split; [|by rewrite Hid].
        apply elem_of_app. right. by apply list_elem_of_singleton.
      * rewrite lookup_insert_ne in Hk by done.
        apply Hcache in Hk as [? (r & Hr & ?)]. split; [done|].
        exists r. split; [|done]. apply elem_of_app. by left.
Qed.

Lemma step_invariant (w w' : World) :
  step w w' -> service_invariant w -> service_invariant w'.
Proof.
  intros [r w0|w0 w1 (Hu & Hs & Hc)] Hinv.
  - assert (Hread : (forall data, r <> PostUsers data) ->
                    service_invariant (snd (handle r w0))).
    { intros Hr. destruct (reads_same_data r w0 Hr) as (Hu & Hs & Hc).
      apply (invariant_same_rows w0); try done; [lia|].
      intros key. right. by rewrite Hc. }
    destruct r; try (by apply Hread). simpl.
    destruct (create_user_table data w0) as (Hle & [[Hu Hc]|Hnew]).
    + apply (invariant_same_rows w0); try done.
      intros key. right. by rewrite Hc.
    + destruct Hnew as (row & Hu & Hid & Hs & Hfree & Hc).
      by apply (invariant_new_row w0 _ row).
  - apply (invariant_same_rows w0); try done. lia.
Qed.

Lemma reachable_invariant (w : World) : reachable w -> service_invariant w.
Proof.
  intros (w0 & (Hu & Hs & Hc) & Hsteps).
  assert (Hinit : service_invariant w0).
  { unfold service_invariant, unique_rows, cache_of_users.
    rewrite Hu, Hc. repeat split; try apply NoDup_nil_2.
    - intros r Hr. by apply elem_of_nil in Hr.
    - apply lookup_empty_Some in H as [].
    - apply lookup_empty_Some in H as []. }
  clear Hu Hs Hc. induction Hsteps as [|w1 w2 w3 Hstep _ IH]; [done|].
  apply IH. by apply (step_invariant w1).
Qed.

(** X23: in every world the service reaches from an empty table, no two
    rows share an id and no two rows share an email. *)
Theorem reachable_unique_rows (w : World) : reachable w -> unique_rows w.
Proof. intros Hw. by apply reachable_invariant in Hw as (_ & ? & _). Qed.

(** X24: in every world the service reaches from an empty table and an
    empty cache, every cache entry sits under the key of a user of the
    table and carries the expiry 3600: the service caches nothing else. *)
Theorem reachable_cache_of_users (w : World) :
  reachable w -> cache_of_users w.
Proof. intros Hw. by apply reachable_invariant in Hw as (_ & _ & ?). Qed.

(** ** Requests in sequence *)

(** A 201 carries the sequence value the row was stored under, and the
    sequence has moved past it. *)
Lemma create_user_id (data : pyval) (w : World) (resp : Response) :
  fst (create_user data w) = Ok resp -> status resp = 201 ->
  response_member "id" resp = Some (PInt (users_id_seq w)) /\
  users_id_seq (snd (create_user data w)) = users_id_seq w + 1.
Proof.
  fields w. run_insert.
  branches; intros Hresp Hstatus; simplify_eq; simpl in *;
    try discriminate; done.
Qed.

(** [create_user] leaves the cache client and its server as they are. *)
Lemma create_user_cache_flags (data : pyval) (w : World) :
  redis_client (snd (create_user data w)) = redis_client w /\
  redis_up (snd (create_user data w)) = redis_up w.
Proof. fields w. run_insert. branches; done. Qed.

(** X25: ids are never handed out twice: a user created later, whatever
    happened in between, gets a larger id. *)
Theorem created_ids_increase (data1 data2 : pyval) (w w2 : World)
    (resp1 resp2 : Response) (id1 id2 : Z) :
  fst (create_user data1 w) = Ok resp1 -> status resp1 = 201 ->
  response_member "id" resp1 = Some (PInt id1) ->
  rtc step (snd (create_user data1 w)) w2 ->
  fst (create_user data2 w2) = Ok resp2 -> status resp2 = 201 ->
  response_member "id" resp2 = Some (PInt id2) ->
  id1 < id2.
Proof.
  intros Hresp1 Hstatus1 Hid1 Hsteps Hresp2 Hstatus2 Hid2.
  destruct (create_user_id data1 w resp1 Hresp1 Hstatus1) as [H1 Hseq1].
  destruct (create_user_id data2 w2 resp2 Hresp2 Hstatus2) as [H2 _].
  apply steps_evolve in Hsteps as (Hle & _).
  rewrite H1 in Hid1. rewrite H2 in Hid2. simplify_eq. lia.
Qed.

(** X26: read after write goes through the cache: when [create_user]
    answered 201 and wrote its snapshot, a [get_user] of the new id on the
    world it left answers the snapshot, whose [created_at] is the string of
    the application clock, and does not connect to the store. *)
Theorem get_user_after_create (d : list (string * pyval))
    (name email : pyval) (w : World) (resp : Response) (s : string) :
  dict_get "name" d = Some name ->
  dict_get "email" d = Some email ->
  redis_client w = true -> redis_up w = true ->
  fst (create_user (PDict d) w) = Ok resp -> status resp = 201 ->
  let snapshot := user_data (users_id_seq w) name email (utcnow_iso w) in
  json_dumps snapshot = Ok s -> s <> "" -> json_loads s = Ok snapshot ->
  let w1 := snd (create_user (PDict d) w) in
  get_user (users_id_seq w) w1 = (Ok (jsonify snapshot 200), w1).
Proof.
  intros Hn He Hclient Hup Hresp Hstatus snapshot Hdumps Hs Hloads w1.
  pose proof (create_user_cache_written d name email w resp s
                Hn He Hclient Hup Hresp Hstatus Hdumps) as Hcache.
  destruct (create_user_cache_flags (PDict d) w) as [Hc1 Hu1].
  fold w1 in Hcache, Hc1, Hu1. rewrite Hclient in Hc1. rewrite Hup in Hu1.
  apply truthy_str in Hs. clearbody w1. fields w1. simpl in *. subst.
  run. rewrite lookup_insert_eq. simpl in *. rewrite Hs, Hloads. reflexivity.
Qed.

End Properties.

(** * The handlers at work *)

(** ** The defects of [/metrics] *)

(** C1: on [/metrics] the ping is made outside any [try]: with the cache
    server gone the exception leaves the view and the caller gets a 500,
    where the same service without a cache client answers 200. *)
Theorem metrics_status_depends_on_ping :
  http_status (fst (metrics cache_down_world)) = 500 /\
  http_status (fst (metrics (disable_cache cache_down_world))) = 200.
Proof. split; reflexivity. Qed.

(** C3: with the cache server gone after startup, [GET /metrics] gives no
    response of its own: the view ends in the exception of the ping. *)
Theorem metrics_raises_without_cache :
  fst (metrics cache_down_world) = Raise RedisConnectionError /\
  forall resp, fst (metrics cache_down_world) <> Ok resp.
Proof. split; [reflexivity|]. intros resp. discriminate. Qed.


(** ** Sample runs *)


Lemma create_user_presence_only_witness :
  missing_fields (PDict [("name", PStr ""); ("email", PStr "")]) = Ok false /\
  http_status
    (fst (create_user (ext := Codec.codec)
            (PDict [("name", PStr ""); ("email", PStr "")]) fresh_world))
  <> 400.
Proof.
  destruct (create_user_presence_only (ext := Codec.codec)
              [("name", PStr ""); ("email", PStr "")] (PStr "") (PStr "")
              fresh_world eq_refl eq_refl) as (Hvalid & Hstatus & _).
  split; [exact Hvalid|exact Hstatus].
Defined.

(** Empty strings are stored; nulls reach the insert too and are refused
    by the table, which the handler reports as a conflict. *)
Example create_user_empty_strings :
  let out := create_user (ext := Codec.codec)
               (PDict [("name", PStr ""); ("email", PStr "")]) fresh_world in
  http_status (fst out) = 201 /\
  users (snd out) =
    [{| row_id := 1; row_name := ""; row_email := "";
        row_created_at := 1672531200 |}].
Proof. split; reflexivity. Qed.

Example create_user_nulls :
  http_status
    (fst (create_user (ext := Codec.codec)
            (PDict [("name", PNone); ("email", PNone)]) fresh_world)) = 409.
Proof. reflexivity. Qed.

Lemma get_user_cache_hit_witness :
  db_up store_down_world = false /\
  get_user (ext := Codec.codec) 1 store_down_world =
  (Ok (jsonify (user_data 1 (PStr "Jane Doe") (PStr "jane@example.com")
                          "2023-01-01T00:00:00") 200),
   store_down_world).
Proof.
  split; [reflexivity|].
  apply get_user_cache_hit. split; [reflexivity|].
  exists jane_snapshot. split; [reflexivity|]. split; [discriminate|].
  vm_compute. reflexivity.
Defined.

Lemma get_user_store_read_keeps_cache_witness :
  redis_data (snd (get_user (ext := Codec.codec) 1 expired_world)) =
  redis_data expired_world.
Proof.
  apply (get_user_store_read_keeps_cache (ext := Codec.codec)
           expired_world 1 jane_row); reflexivity.
Defined.

Lemma duplicate_email_conflict_witness :
  let w1 := snd (create_user (ext := Codec.codec) jane fresh_world) in
  fst (create_user (ext := Codec.codec)
         (PDict [("name", PStr "Janet Doe");
                 ("email", PStr "jane@example.com")])
         (snd (handle (ext := Codec.codec) GetMetrics w1))) =
  Ok (jsonify (error_body "Email already exists") 409).
Proof.
  intros w1.
  eapply (duplicate_email_conflict (ext := Codec.codec)
            [("name", PStr "Jane Doe"); ("email", PStr "jane@example.com")]
            [("name", PStr "Janet Doe"); ("email", PStr "jane@example.com")]
            "Jane Doe" "Janet Doe" "jane@example.com" fresh_world);
    try reflexivity.
  - simpl. lia.
  - apply rtc_once. apply (step_request GetMetrics).
Defined.

Lemma create_then_get_user_witness :
  let w1 := snd (create_user (ext := Codec.codec) jane fresh_world) in
  let w2 := snd (handle (ext := Codec.codec) GetMetrics w1) in
  exists record,
    fst (get_user (ext := Codec.codec) 1 w2) = Ok (jsonify (PDict record) 200) /\
    dict_get "id" record = Some (PInt 1) /\
    dict_get "name" record = Some (PStr "Jane Doe") /\
    dict_get "email" record = Some (PStr "jane@example.com").
Proof.
  intros w1 w2.
  eapply (create_then_get_user (ext := Codec.codec)
            [("name", PStr "Jane Doe"); ("email", PStr "jane@example.com")]
            "Jane Doe" "jane@example.com" fresh_world w2);
    try reflexivity.
  - apply (reachable_coherent (ext := Codec.codec)).
    exists fresh_world. split; [by repeat split|apply rtc_refl].
  - intros s v Hdumps Hloads. vm_compute in Hdumps.
    injection Hdumps as <-. vm_compute in Hloads. by injection Hloads as <-.
  - apply rtc_once. apply (step_request GetMetrics).
Defined.

(** ** Sample runs of the further properties *)

Lemma get_user_not_found_witness :
  fst (get_user (ext := Codec.codec) 7 fresh_world) =
  Ok (jsonify (error_body "User not found") 404).
Proof.
  apply get_user_not_found; try reflexivity.
  intros r Hr. by apply elem_of_nil in Hr.
Defined.

Lemma get_user_store_failure_witness :
  fst (get_user (ext := Codec.codec) 2 store_down_world) =
    Ok (jsonify (error_body "Database connection failed") 500) /\
  same_data store_down_world
    (snd (get_user (ext := Codec.codec) 2 store_down_world)).
Proof.
  apply (get_user_store_failure (ext := Codec.codec) store_down_world 2).
  - reflexivity.
  - left. reflexivity.
Defined.

Lemma get_user_from_store_witness :
  fst (get_user (ext := Codec.codec) 1 expired_world) =
  Ok (jsonify (PDict [("id", PInt 1); ("name", PStr "Jane Doe");
                      ("email", PStr "jane@example.com");
                      ("created_at", PDatetime 1672531200)]) 200).
Proof.
  apply (get_user_from_store (ext := Codec.codec) expired_world jane_row);
    try reflexivity.
  - right. right. reflexivity.
  - apply NoDup_singleton.
  - apply list_elem_of_here.
Defined.

Lemma get_users_lists_rows_witness :
  exists rows,
    fst (get_users expired_world) = Ok (jsonify (PList (map row_dict rows)) 200) /\
    rows ≡ₚ users expired_world /\ newest_first rows.
Proof. apply get_users_lists_rows; reflexivity. Defined.

Lemma get_users_store_failure_witness :
  fst (get_users store_down_world) =
  Ok (jsonify (error_body "Database connection failed") 500).
Proof. apply (get_users_store_failure store_down_world). left. reflexivity. Defined.

Lemma read_routes_keep_world_witness :
  let w' := snd (handle (ext := Codec.codec) GetMetrics fresh_world) in
  w' = set_conns (db_open w') (db_connects w') fresh_world.
Proof.
  apply (read_routes_keep_world (ext := Codec.codec) GetMetrics fresh_world).
  intros data. discriminate.
Defined.

Lemma create_user_caches_snapshot_witness :
  let w1 := snd (create_user (ext := Codec.codec) jane fresh_world) in
  redis_data w1 !! user_key 1 = Some (jane_snapshot, 3600) /\
  forall key, key <> user_key 1 ->
              redis_data w1 !! key = redis_data fresh_world !! key.
Proof.
  eapply (create_user_caches_snapshot (ext := Codec.codec)
            [("name", PStr "Jane Doe"); ("email", PStr "jane@example.com")]
            (PStr "Jane Doe") (PStr "jane@example.com") fresh_world);
    reflexivity.
Defined.

Lemma create_user_store_failure_witness :
  fst (create_user (ext := Codec.codec) janet store_down_world) =
    Ok (jsonify (error_body "Database connection failed") 500) /\
  same_data store_down_world
    (snd (create_user (ext := Codec.codec) janet store_down_world)).
Proof.
  apply (create_user_store_failure (ext := Codec.codec)
           [("name", PStr "Janet Doe"); ("email", PStr "janet@example.com")]
           (PStr "Janet Doe") (PStr "janet@example.com") store_down_world);
    try reflexivity.
  left. reflexivity.
Defined.

Lemma create_user_non_object_body_witness :
  let data := PList [PStr "name"; PStr "email"] in
  (http_status (fst (create_user (ext := Codec.codec) data fresh_world)) = 400 \/
   http_status (fst (create_user (ext := Codec.codec) data fresh_world)) = 500) /\
  same_data fresh_world (snd (create_user (ext := Codec.codec) data fresh_world)).
Proof.
  apply (create_user_non_object_body (ext := Codec.codec)).
  intros d. discriminate.
Defined.

Lemma create_user_null_is_conflict_witness :
  let d := [("name", PNone); ("email", PStr "null@example.com")] in
  fst (create_user (ext := Codec.codec) (PDict d) fresh_world) =
    Ok (jsonify (error_body "Email already exists") 409) /\
  users (snd (create_user (ext := Codec.codec) (PDict d) fresh_world)) =
    users fresh_world.
Proof.
  apply (create_user_null_is_conflict (ext := Codec.codec) _ PNone
           (PStr "null@example.com") fresh_world); try reflexivity.
  - by left.
  - right. exists "null@example.com". split; [reflexivity|]. simpl. lia.
  - by left.
Defined.


Lemma metrics_gauges_witness :
  exists text,
    fst (metrics store_down_world) =
      Ok {| status := 200; content_type := "text/plain";
            content := TextBody text |} /\
    lines text =
      ["http_requests_total 1"; "http_request_duration_seconds 0.1";
       "database_connections_active 0"; "redis_connections_active 1"].
Proof. apply (metrics_gauges store_down_world). right. reflexivity. Defined.

Lemma disabled_cache_is_ignored_witness :
  redis_data (snd (handle (ext := Codec.codec) (GetUser 1) no_cache_world)) =
    redis_data no_cache_world /\
  fst (handle (ext := Codec.codec) (GetUser 1)
         (with_cache false false ∅ no_cache_world)) =
  fst (handle (ext := Codec.codec) (GetUser 1) no_cache_world).
Proof.
  apply (disabled_cache_is_ignored (ext := Codec.codec) (GetUser 1)
           no_cache_world false ∅).
  reflexivity.
Defined.

Lemma init_database_creates_witness :
  let first := init_database fresh_world ∅ in
  first.1.1 = true /\
  first.2 = {["users"; "visits"]} ∪ ∅ /\
  (init_database expired_world first.2).2 = first.2.
Proof. apply (init_database_creates fresh_world expired_world ∅); reflexivity. Defined.

Lemma init_database_failure_witness :
  (init_database store_down_world {["users"]}).1.1 = false /\
  (init_database store_down_world {["users"]}).2 = {["users"]}.
Proof.
  apply (init_database_failure store_down_world {["users"]}).
  left. reflexivity.
Defined.

Lemma jane_created_reachable :
  reachable (ext := Codec.codec)
    (snd (create_user (ext := Codec.codec) jane fresh_world)).
Proof.
  exists fresh_world. split; [by repeat split|].
  apply rtc_once. apply (step_request (PostUsers jane)).
Qed.

Lemma reachable_unique_rows_witness :
  unique_rows (snd (create_user (ext := Codec.codec) jane fresh_world)).
Proof.
  apply (reachable_unique_rows (ext := Codec.codec)).
  apply jane_created_reachable.
Defined.

Lemma reachable_cache_of_users_witness :
  cache_of_users (snd (create_user (ext := Codec.codec) jane fresh_world)).
Proof.
  apply (reachable_cache_of_users (ext := Codec.codec)).
  apply jane_created_reachable.
Defined.

Lemma created_ids_increase_witness : 1 < 2.
Proof.
  eapply (created_ids_increase (ext := Codec.codec) jane janet fresh_world
            (snd (handle (ext := Codec.codec) GetHealth
                    (snd (create_user (ext := Codec.codec) jane fresh_world)))));
    try reflexivity.
  apply rtc_once. apply (step_request GetHealth).
Defined.

Lemma get_user_after_create_witness :
  let w1 := snd (create_user (ext := Codec.codec) jane fresh_world) in
  get_user (ext := Codec.codec) 1 w1 =
  (Ok (jsonify (user_data 1 (PStr "Jane Doe") (PStr "jane@example.com")
                          "2023-01-01T00:00:00") 200), w1).
Proof.
  eapply (get_user_after_create (ext := Codec.codec)
            [("name", PStr "Jane Doe"); ("email", PStr "jane@example.com")]
            (PStr "Jane Doe") (PStr "jane@example.com") fresh_world);
    try reflexivity.
  discriminate.
Defined.
